(** * Configuration resolution of code-gov-api ([config/index.js])

    A shallow embedding of [getConfig] and its helpers, with the JavaScript
    values they manipulate, followed by the properties of the resolved
    configuration record. *)

From Stdlib Require Import ZArith Ascii String List Bool Lia.
From stdpp Require Import base option gmap strings.

Local Open Scope string_scope.
Local Open Scope list_scope.

(** ** JavaScript values *)

(** Strings are sequences of code units; the model covers the code units
    below 256 (Rocq's [ascii]). *)

(** The Number values that occur here are integers and NaN. [Num z] is the
    Number whose mathematical value is [z]; the sign of zero is not
    recorded. *)
Inductive number :=
| NaN
| Num (z : Z).

(** The fragment of regular expressions that the module's one literal needs:
    literal characters, [\d], concatenation, [?] and capturing groups. *)
Inductive regex :=
| RChar (c : ascii)
| RDigit
| RSeq (r1 r2 : regex)
| ROpt (r : regex)
| RGroup (r : regex).

#[local] Set Warnings "-register-all".

Inductive value :=
| VUndefined
| VNull
| VBool (b : bool)
| VNum (n : number)
| VStr (s : string)
| VArr (xs : list value)
| VObj (props : list (string * value))
| VRegExp (r : regex).

(** A plain object: its own properties, in insertion order. *)
Definition object := list (string * value).

(** ToBoolean. *)
Definition truthy (v : value) : bool :=
  match v with
  | VUndefined | VNull => false
  | VBool b => b
  | VNum NaN => false
  | VNum (Num z) => negb (z =? 0)%Z
  | VStr s => negb (s =? "")
  | VArr _ | VObj _ | VRegExp _ => true
  end.

(** [a && b] *)
Definition js_and (a b : value) : value := if truthy a then b else a.

(** [v === 'lit'] for a string literal. *)
Definition strict_eq_str (v : value) (lit : string) : bool :=
  match v with
  | VStr s => s =? lit
  | _ => false
  end.

(** A value that is neither [undefined] nor [null]. *)
Definition is_defined (v : value) : bool :=
  match v with
  | VUndefined | VNull => false
  | _ => true
  end.

(** Property read [o.k] on a plain object: [undefined] when absent. *)
Fixpoint get_prop (o : object) (k : string) : value :=
  match o with
  | [] => VUndefined
  | (k', v) :: o' => if k' =? k then v else get_prop o' k
  end.

(** Property write [o.k = v]: an existing property keeps its place, a new
    one is added last. *)
Fixpoint set_prop (o : object) (k : string) (v : value) : object :=
  match o with
  | [] => [(k, v)]
  | (k', v') :: o' => if k' =? k then (k', v) :: o' else (k', v') :: set_prop o' k v
  end.

(** *** Number to string *)

Definition digit_char (d : nat) : ascii := ascii_of_nat (48 + d).

Fixpoint decimal_digits (fuel : nat) (p : positive) (acc : string) : string :=
  match fuel with
  | O => acc
  | S fuel' =>
      let q := (Z.pos p / 10)%Z in
      let d := Z.to_nat (Z.pos p mod 10) in
      let acc' := String (digit_char d) acc in
      match q with
      | Z.pos p' => decimal_digits fuel' p' acc'
      | _ => acc'
      end
  end.

Definition nat_of_pos_bits (p : positive) : nat := Pos.size_nat p.

(** Decimal numeral of an integer, as [Number.prototype.toString] prints
    integers below 10^21 in magnitude. *)
Definition Z_to_string (z : Z) : string :=
  match z with
  | Z0 => "0"
  | Z.pos p => decimal_digits (nat_of_pos_bits p) p ""
  | Z.neg p => String "-" (decimal_digits (nat_of_pos_bits p) p "")
  end.

Definition number_to_string (n : number) : string :=
  match n with
  | NaN => "NaN"
  | Num z => Z_to_string z
  end.

(** *** ToString *)

Definition is_meta (c : ascii) : bool :=
  existsb (Ascii.eqb c) (list_ascii_of_string "\^$.|?*+()[]{}/").

(** The source text of a pattern, as [RegExp.prototype.source] gives it. *)
Fixpoint regex_source (r : regex) : string :=
  match r with
  | RChar c => if is_meta c then String "\" (String c "") else String c ""
  | RDigit => "\d"
  | RSeq r1 r2 => regex_source r1 ++ regex_source r2
  | ROpt r1 => regex_source r1 ++ "?"
  | RGroup r1 => "(" ++ regex_source r1 ++ ")"
  end.

(** ToString, as string concatenation and template literals apply it. *)
Fixpoint ToString (v : value) : string :=
  match v with
  | VUndefined => "undefined"
  | VNull => "null"
  | VBool true => "true"
  | VBool false => "false"
  | VNum n => number_to_string n
  | VStr s => s
  | VArr xs =>
      let elem (x : value) : string :=
        match x with
        | VUndefined | VNull => ""
        | _ => ToString x
        end in
      String.concat "," (List.map elem xs)
  | VObj _ => "[object Object]"
  | VRegExp r => "/" ++ regex_source r ++ "/"
  end.

(** [Array.prototype.includes] on an array of strings, searched for a
    string. *)
Definition includes (xs : list string) (x : string) : bool :=
  existsb (String.eqb x) xs.

(** *** Matching *)

Definition is_digit (c : ascii) : bool :=
  let n := nat_of_ascii c in (48 <=? n)%nat && (n <=? 57)%nat.

(** [match_here r s]: what is left of [s] after each way [r] can match a
    prefix of it, in the order a backtracking matcher tries them. *)
Fixpoint match_here (r : regex) (s : string) : list string :=
  match r with
  | RChar c =>
      match s with
      | String c' s' => if Ascii.eqb c c' then [s'] else []
      | EmptyString => []
      end
  | RDigit =>
      match s with
      | String c' s' => if is_digit c' then [s'] else []
      | EmptyString => []
      end
  | RSeq r1 r2 => List.concat (List.map (match_here r2) (match_here r1 s))
  | ROpt r1 => match_here r1 s ++ [s]
  | RGroup r1 => match_here r1 s
  end.

Definition matches_at (r : regex) (s : string) : bool :=
  match match_here r s with
  | [] => false
  | _ :: _ => true
  end.

(** [RegExp.prototype.test] for a pattern without flags: a match may start
    at any index of the string. *)
Fixpoint regex_test (r : regex) (s : string) : bool :=
  matches_at r s ||
  match s with
  | EmptyString => false
  | String _ s' => regex_test r s'
  end.

(** *** parseInt *)

(** WhiteSpace and LineTerminator code units below 256. *)
Definition is_white_space (c : ascii) : bool :=
  existsb (Nat.eqb (nat_of_ascii c)) [9; 10; 11; 12; 13; 32; 160]%nat.

Fixpoint trim_start (s : string) : string :=
  match s with
  | String c s' => if is_white_space c then trim_start s' else s
  | EmptyString => EmptyString
  end.

(** The value of [c] as a digit in radix [radix], if it is one. *)
Definition digit_value (radix : Z) (c : ascii) : option Z :=
  let n := Z.of_nat (nat_of_ascii c) in
  let d :=
    if (48 <=? n)%Z && (n <=? 57)%Z then Some (n - 48)%Z
    else if (97 <=? n)%Z && (n <=? 122)%Z then Some (n - 87)%Z
    else if (65 <=? n)%Z && (n <=? 90)%Z then Some (n - 55)%Z
    else None in
  match d with
  | Some d => if (d <? radix)%Z then Some d else None
  | None => None
  end.

(** The integer spelled by the longest prefix of [s] made of radix-[radix]
    digits; [acc] is the value read so far, [None] before the first digit. *)
Fixpoint digits_prefix (radix : Z) (s : string) (acc : option Z) : option Z :=
  match s with
  | String c s' =>
      match digit_value radix c with
      | Some d => digits_prefix radix s' (Some (radix * default 0%Z acc + d)%Z)
      | None => acc
      end
  | EmptyString => acc
  end.

Definition strip_sign (s : string) : Z * string :=
  match s with
  | String "-" s' => ((-1)%Z, s')
  | String "+" s' => (1%Z, s')
  | _ => (1%Z, s)
  end.

Definition strip_hex_prefix (s : string) : Z * string :=
  match s with
  | String "0" (String "x" s') => (16%Z, s')
  | String "0" (String "X" s') => (16%Z, s')
  | _ => (10%Z, s)
  end.

(** [parseInt(string)] with no radix argument. *)
Definition parseInt (s : string) : number :=
  let '(sign, s1) := strip_sign (trim_start s) in
  let '(radix, s2) := strip_hex_prefix s1 in
  match digits_prefix radix s2 None with
  | None => NaN
  | Some m => Num (sign * m)
  end.

(** ** The world the module runs in *)

(** The [cfenv] application environment (the platform binding).
    [getServiceCreds] answers [None] for JavaScript's [null], which is what
    it returns when no bound service has the name asked for. *)
Record AppEnv := {
  isLocal : bool;
  port : option Z;
  app_uris : option (list string);
  getServiceCreds : string -> option object
}.

(** What the module reaches through [require]: Node's [path], the [cfenv]
    snapshot, the variables [dotenv] parses out of the [.env] file ([None]
    when it cannot read the file: [dotenv.config] reports that in its result,
    which is not looked at) and the JSON documents [jsonfile.readFileSync]
    can read ([None] when it throws). *)
Record Host := {
  module_dirname : string;
  path_dirname : string -> string;
  path_join : string -> string -> string;
  cfenv_getAppEnv : AppEnv;
  dotenv_parsed : option (gmap string string);
  jsonfile_readFileSync : string -> option object
}.

Inductive error :=
| TypeError (msg : string)
| ReadError (file : string).

(** Computations over [process.env] that may throw: they answer a value or
    an error, together with the variable table they leave behind. *)
Definition M (A : Type) : Type :=
  gmap string string -> (error + A) * gmap string string.

#[global] Instance M_ret : MRet M := fun A a penv => (inr a, penv).

#[global] Instance M_bind : MBind M := fun A B f m penv =>
  match m penv with
  | (inr a, penv') => f a penv'
  | (inl e, penv') => (inl e, penv')
  end.

Definition throw {A : Type} (e : error) : M A := fun penv => (inl e, penv).

Definition of_opt_str (o : option string) : value :=
  match o with
  | Some s => VStr s
  | None => VUndefined
  end.

Definition of_opt_int (o : option Z) : value :=
  match o with
  | Some z => VNum (Num z)
  | None => VUndefined
  end.

(** [process.env.NAME] *)
Definition process_env (name : string) : M value :=
  fun penv => (inr (of_opt_str (penv !! name)), penv).

(** [dotenv.config]: every parsed variable that [process.env] does not have
    yet is added to it; the ones already there are kept. Which file the
    library opens for the argument it is given is the host's matter:
    [dotenv_parsed] is what it finds there. *)
Definition dotenv_config (h : Host) (options : string) : M unit :=
  fun penv =>
    match dotenv_parsed h with
    | Some parsed => (inr tt, penv ∪ parsed)
    | None => (inr tt, penv)
    end.

(** ** The configuration record *)

Record Config := {
  prod_envs : value;
  isProd : value;
  LOGGER_LEVEL : value;
  TERM_TYPES_TO_SEARCH : value;
  VALID_QUERY_PARAMS : value;
  UPDATE_REPO_REGEX : value;
  USE_HSTS : value;
  HSTS_MAX_AGE : value;
  HSTS_PRELOAD : value;
  HSTS_SUBDOMAINS : value;
  PORT : value;
  GET_REMOTE_METADATA : value;
  ES_HOST : value;
  AGENCY_ENDPOINTS_FILE : value;
  SWAGGER_DOCUMENT : value;
  ALLOWED_DOMAINS : value
}.

(** ** config/index.js *)

Definition getElasticsearchUri (cloudFoundryEnv : AppEnv) : M value :=
  if negb (isLocal cloudFoundryEnv) then
    ELASTICSEARCH_SERVICE_NAME ← process_env "ELASTICSEARCH_SERVICE_NAME";
    let serviceName :=
      if truthy ELASTICSEARCH_SERVICE_NAME
      then ELASTICSEARCH_SERVICE_NAME
      else VStr "code_gov_elasticsearch" in
    match getServiceCreds cloudFoundryEnv (ToString serviceName) with
    | None => throw (TypeError "Cannot read property 'uri' of null")
    | Some elasticSearchCredentials =>
        let uri := get_prop elasticSearchCredentials "uri" in
        mret (if truthy uri then uri else VStr "http://localhost:9200")
    end
  else
    ES_URI ← process_env "ES_URI";
    mret (if truthy ES_URI then ES_URI else VStr "http://localhost:9200").

Definition getPort (cloudFoundryEnv : AppEnv) : M value :=
  PORT ← process_env "PORT";
  mret (if truthy PORT
        then PORT
        else if truthy (of_opt_int (port cloudFoundryEnv))
             then of_opt_int (port cloudFoundryEnv)
             else VNum (Num 3000)).

Definition getAppFilesDirectories (h : Host) : M object :=
  GET_REMOTE_METADATA ← process_env "GET_REMOTE_METADATA";
  REMOTE_METADATA_LOCATION ← process_env "REMOTE_METADATA_LOCATION";
  NODE_ENV ← process_env "NODE_ENV";
  let filePath :=
    if truthy (js_and GET_REMOTE_METADATA REMOTE_METADATA_LOCATION)
    then REMOTE_METADATA_LOCATION
    else if strict_eq_str NODE_ENV "testing"
         then VStr (path_join h (path_dirname h (module_dirname h))
                      "config/testing_agency_metadata.json")
         else VStr (path_join h (path_dirname h (module_dirname h))
                      "config/agency_metadata.json") in
  mret [("AGENCY_ENDPOINTS_FILE", filePath)].

Definition readFileSync (h : Host) (file : string) : M object :=
  match jsonfile_readFileSync h file with
  | Some doc => mret doc
  | None => throw (ReadError file)
  end.

Definition getSwaggerConf (h : Host) (isProd : bool) (apiUrl : value) : M value :=
  SWAGGER_DOCUMENT ←
    (if isProd
     then readFileSync h (path_join h (path_dirname h (module_dirname h)) "./swagger-prod.json")
     else readFileSync h (path_join h (path_dirname h (module_dirname h)) "./swagger.json"));
  mret (VObj (set_prop SWAGGER_DOCUMENT "host"
                (if truthy apiUrl then apiUrl else VStr "api.code.gov"))).

(** The literal [/(1\.0)(\.\d)?/]. *)
Definition update_repo_pattern : regex :=
  RSeq (RGroup (RSeq (RChar "1") (RSeq (RChar ".") (RChar "0"))))
       (ROpt (RGroup (RSeq (RChar ".") RDigit))).

Definition getConfig (h : Host) (env : option string) : M Config :=
  let env := default "development" env in
  let prod_envs := ["prod"; "production"] in
  let cloudFoundryEnv := cfenv_getAppEnv h in
  let isProd := includes prod_envs env in
  (if isLocal cloudFoundryEnv
   then dotenv_config h (path_join h (path_dirname h (module_dirname h)) ".env")
   else mret tt) ≫= fun _ =>
  LOGGER_LEVEL_var ← process_env "LOGGER_LEVEL";
  let LOGGER_LEVEL :=
    if truthy LOGGER_LEVEL_var
    then LOGGER_LEVEL_var
    else if isProd then VStr "INFO" else VStr "DEBUG" in
  let TERM_TYPES_TO_SEARCH :=
    VArr [VStr "name"; VStr "agency.name"; VStr "agency.acronym"; VStr "tags";
          VStr "languages"] in
  let VALID_QUERY_PARAMS :=
    VArr [VStr "license"; VStr "name"; VStr "agency.name";
          VStr "permissions.usageType"; VStr "agency.acronym"; VStr "status";
          VStr "vcs"; VStr "measurementType.method"; VStr "language";
          VStr "created"; VStr "lastModified"; VStr "metadataLastUpdated"] in
  let UPDATE_REPO_REGEX := VRegExp update_repo_pattern in
  USE_HSTS_var ← process_env "USE_HSTS";
  let USE_HSTS :=
    if truthy USE_HSTS_var
    then VBool (strict_eq_str USE_HSTS_var "true")
    else VBool isProd in
  HSTS_MAX_AGE_var ← process_env "HSTS_MAX_AGE";
  let HSTS_MAX_AGE :=
    if truthy HSTS_MAX_AGE_var
    then VNum (parseInt (ToString HSTS_MAX_AGE_var))
    else VNum (Num 31536000) in
  HSTS_PRELOAD_var ← process_env "HSTS_PRELOAD";
  let HSTS_PRELOAD :=
    js_and HSTS_PRELOAD_var (VBool (strict_eq_str HSTS_PRELOAD_var "true")) in
  HSTS_SUBDOMAINS_var ← process_env "HSTS_SUBDOMAINS";
  let HSTS_SUBDOMAINS :=
    js_and HSTS_SUBDOMAINS_var (VBool (strict_eq_str HSTS_SUBDOMAINS_var "true")) in
  PORT ← getPort cloudFoundryEnv;
  GET_REMOTE_METADATA_var ← process_env "GET_REMOTE_METADATA";
  let GET_REMOTE_METADATA :=
    js_and GET_REMOTE_METADATA_var
           (VBool (strict_eq_str GET_REMOTE_METADATA_var "true")) in
  ES_HOST ← getElasticsearchUri cloudFoundryEnv;
  appFiles ← getAppFilesDirectories h;
  API_URL ← process_env "API_URL";
  let apiUrl :=
    if truthy API_URL
    then API_URL
    else match app_uris cloudFoundryEnv with
         | Some uris =>
             VStr (ToString (nth 0 (List.map VStr uris) VUndefined) ++ "/api")
         | None => VStr ("0.0.0.0:" ++ ToString PORT)
         end in
  SWAGGER_DOCUMENT ← getSwaggerConf h isProd apiUrl;
  let ALLOWED_DOMAINS :=
    [VStr ("http://localhost:" ++ ToString PORT);
     VStr ("http://127.0.0.1:" ++ ToString PORT)] in
  let ALLOWED_DOMAINS :=
    ALLOWED_DOMAINS ++ [if isProd then VStr "https://api.data.gov" else VStr "*"] in
  mret {|
    prod_envs := VArr (List.map VStr prod_envs);
    isProd := VBool isProd;
    LOGGER_LEVEL := LOGGER_LEVEL;
    TERM_TYPES_TO_SEARCH := TERM_TYPES_TO_SEARCH;
    VALID_QUERY_PARAMS := VALID_QUERY_PARAMS;
    UPDATE_REPO_REGEX := UPDATE_REPO_REGEX;
    USE_HSTS := USE_HSTS;
    HSTS_MAX_AGE := HSTS_MAX_AGE;
    HSTS_PRELOAD := HSTS_PRELOAD;
    HSTS_SUBDOMAINS := HSTS_SUBDOMAINS;
    PORT := PORT;
    GET_REMOTE_METADATA := GET_REMOTE_METADATA;
    ES_HOST := ES_HOST;
    AGENCY_ENDPOINTS_FILE := get_prop appFiles "AGENCY_ENDPOINTS_FILE";
    SWAGGER_DOCUMENT := SWAGGER_DOCUMENT;
    ALLOWED_DOMAINS := VArr ALLOWED_DOMAINS
  |}.

(** ** Vocabulary of the properties *)

(** [process.env] as the rules of [getConfig] read it: the table the call
    starts from, completed in local mode by the variables of the [.env]
    file. *)
Definition loaded_env (h : Host) (penv : gmap string string) : gmap string string :=
  if isLocal (cfenv_getAppEnv h)
  then match dotenv_parsed h with
       | Some parsed => penv ∪ parsed
       | None => penv
       end
  else penv.

(** [file] is the Swagger document that an environment with production
    flag [prod] reads. *)
Definition swagger_file (h : Host) (prod : bool) : string :=
  path_join h (path_dirname h (module_dirname h))
    (if prod then "./swagger-prod.json" else "./swagger.json").

(** The service name looked up in non-local mode. *)
Definition service_name (penv : gmap string string) : string :=
  match penv !! "ELASTICSEARCH_SERVICE_NAME" with
  | Some name => if name =? "" then "code_gov_elasticsearch" else name
  | None => "code_gov_elasticsearch"
  end.

(** How a field computed as [process.env.X && process.env.X === 'true']
    relates to the variable [X]: [o] is the variable ([None] when unset),
    [v] the field. *)
Definition literal_true_flag (o : option string) (v : value) : Prop :=
  (o = Some "true" -> v = VBool true) /\
  (forall s, o = Some s -> s <> "true" -> s <> "" -> v = VBool false) /\
  (o = Some "" -> v = VStr "") /\
  (o = None -> v = VUndefined).

(** [s], after its leading white space, an optional sign and an optional
    [0x] prefix, goes on with a digit: its leading characters spell an
    integer. *)
Definition leading_integer (s : string) : bool :=
  let '(_, s1) := strip_sign (trim_start s) in
  let '(radix, s2) := strip_hex_prefix s1 in
  match s2 with
  | String c _ =>
      match digit_value radix c with
      | Some _ => true
      | None => false
      end
  | EmptyString => false
  end.

(** The host [h] with other JSON documents on disk. *)
Definition with_documents (h : Host) (files : string -> option object) : Host := {|
  module_dirname := module_dirname h;
  path_dirname := path_dirname h;
  path_join := path_join h;
  cfenv_getAppEnv := cfenv_getAppEnv h;
  dotenv_parsed := dotenv_parsed h;
  jsonfile_readFileSync := files
|}.

(** The host [h] with another [.env] file. *)
Definition with_dotenv (h : Host) (parsed : option (gmap string string)) : Host := {|
  module_dirname := module_dirname h;
  path_dirname := path_dirname h;
  path_join := path_join h;
  cfenv_getAppEnv := cfenv_getAppEnv h;
  dotenv_parsed := parsed;
  jsonfile_readFileSync := jsonfile_readFileSync h
|}.


(** [s] has [sub] as a substring. *)
Definition contains (sub s : string) : Prop :=
  exists p q : string, s = (p ++ sub ++ q)%string.

Fixpoint all_digits (s : string) : bool :=
  match s with
  | EmptyString => true
  | String c s' => is_digit c && all_digits s'
  end.

Fixpoint split_at_dot (s : string) : string * option string :=
  match s with
  | EmptyString => (EmptyString, None)
  | String c s' =>
      if Ascii.eqb c "."
      then (EmptyString, Some s')
      else let '(a, b) := split_at_dot s' in (String c a, b)
  end.

Definition numeral (s : string) : bool :=
  negb (s =? "") && all_digits s.

(** The reading of the pattern in the specification: the whole string is
    [major.minor] or [major.minor.patch], each component a decimal numeral,
    and the major component is 1. *)
Definition spec_version_string (s : string) : bool :=
  match split_at_dot s with
  | (major, Some rest) =>
      (major =? "1") &&
      match split_at_dot rest with
      | (minor, None) => numeral minor
      | (minor, Some patch) => numeral minor && numeral patch
      end
  | (_, None) => false
  end.

(** ** Sample worlds *)

Module Sample.

Definition join (a b : string) : string := a ++ "/" ++ b.

Definition documents (file : string) : option object :=
  if file =? "/srv/api/./swagger.json"
  then Some [("swagger", VStr "2.0"); ("host", VStr "localhost")]
  else if file =? "/srv/api/./swagger-prod.json"
       then Some [("swagger", VStr "2.0")]
       else None.

Definition services (name : string) : option object :=
  if name =? "code_gov_elasticsearch"
  then Some [("uri", VStr "http://es.internal:9200")]
  else None.

(** A developer's machine: no platform port, a [.env] file. *)
Definition laptop : Host := {|
  module_dirname := "/srv/api/config";
  path_dirname := fun _ => "/srv/api";
  path_join := join;
  cfenv_getAppEnv :=
    {| isLocal := true; port := None; app_uris := None;
       getServiceCreds := fun _ => None |};
  dotenv_parsed := Some {[ "LOGGER_LEVEL" := "WARN" ]};
  jsonfile_readFileSync := documents
|}.

(** A deployment with a bound search service. *)
Definition cloud : Host := {|
  module_dirname := "/srv/api/config";
  path_dirname := fun _ => "/srv/api";
  path_join := join;
  cfenv_getAppEnv :=
    {| isLocal := false; port := Some 8080%Z;
       app_uris := Some ["api.example.gov"];
       getServiceCreds := services |};
  dotenv_parsed := None;
  jsonfile_readFileSync := documents
|}.

(** A deployment to which no service is bound. *)
Definition unbound : Host := {|
  module_dirname := "/srv/api/config";
  path_dirname := fun _ => "/srv/api";
  path_join := join;
  cfenv_getAppEnv :=
    {| isLocal := false; port := Some 8080%Z;
       app_uris := Some ["api.example.gov"];
       getServiceCreds := fun _ => None |};
  dotenv_parsed := None;
  jsonfile_readFileSync := documents
|}.

End Sample.

(** * Properties *)

(** ** The model on concrete inputs *)

Example Z_to_string_3000 : Z_to_string 3000 = "3000".
Proof. reflexivity. Qed.

Example Z_to_string_neg : Z_to_string (-15) = "-15".
Proof. reflexivity. Qed.

Example parseInt_plain : parseInt "31536000" = Num 31536000.
Proof. reflexivity. Qed.

Example parseInt_trailing : parseInt "  -42px" = Num (-42).
Proof. reflexivity. Qed.

Example parseInt_hex : parseInt "0x1F" = Num 31.
Proof. reflexivity. Qed.

Example parseInt_abc : parseInt "abc" = NaN.
Proof. reflexivity. Qed.

Example parseInt_bare_prefix : parseInt "0x" = NaN.
Proof. reflexivity. Qed.

Example getConfig_cloud_development :
  fst (getConfig Sample.cloud None ∅) = inr {|
    prod_envs := VArr [VStr "prod"; VStr "production"];
    isProd := VBool false;
    LOGGER_LEVEL := VStr "DEBUG";
    TERM_TYPES_TO_SEARCH :=
      VArr [VStr "name"; VStr "agency.name"; VStr "agency.acronym";
            VStr "tags"; VStr "languages"];
    VALID_QUERY_PARAMS :=
      VArr [VStr "license"; VStr "name"; VStr "agency.name";
            VStr "permissions.usageType"; VStr "agency.acronym";
            VStr "status"; VStr "vcs"; VStr "measurementType.method";
            VStr "language"; VStr "created"; VStr "lastModified";
            VStr "metadataLastUpdated"];
    UPDATE_REPO_REGEX := VRegExp update_repo_pattern;
    USE_HSTS := VBool false;
    HSTS_MAX_AGE := VNum (Num 31536000);
    HSTS_PRELOAD := VUndefined;
    HSTS_SUBDOMAINS := VUndefined;
    PORT := VNum (Num 8080);
    GET_REMOTE_METADATA := VUndefined;
    ES_HOST := VStr "http://es.internal:9200";
    AGENCY_ENDPOINTS_FILE := VStr "/srv/api/config/agency_metadata.json";
    SWAGGER_DOCUMENT :=
      VObj [("swagger", VStr "2.0"); ("host", VStr "api.example.gov/api")];
    ALLOWED_DOMAINS :=
      VArr [VStr "http://localhost:8080"; VStr "http://127.0.0.1:8080";
            VStr "*"]
  |}.
Proof. vm_compute. reflexivity. Qed.

Example update_repo_pattern_source :
  regex_source update_repo_pattern = "(1\.0)(\.\d)?".
Proof. reflexivity. Qed.

(** ** Running [getConfig] *)

Ltac unfold_getConfig :=
  unfold getConfig, getPort, getElasticsearchUri, getAppFilesDirectories,
    getSwaggerConf, readFileSync, dotenv_config, process_env, throw;
  unfold mbind, mret, M_bind, M_ret.

Ltac unfold_getConfig_in H :=
  unfold getConfig, getPort, getElasticsearchUri, getAppFilesDirectories,
    getSwaggerConf, readFileSync, dotenv_config, process_env, throw in H;
  unfold mbind, mret, M_bind, M_ret in H.

Lemma loaded_env_idemp h penv :
  loaded_env h (loaded_env h penv) = loaded_env h penv.
Proof.
  unfold loaded_env.
  destruct (isLocal (cfenv_getAppEnv h)); [|reflexivity].
  destruct (dotenv_parsed h) as [parsed|]; [|reflexivity].
  rewrite <- (assoc (∪)), (idemp (∪) parsed). reflexivity.
Qed.

Lemma loaded_env_lookup h penv k :
  loaded_env h penv !! k =
  match penv !! k with
  | Some v => Some v
  | None =>
      if isLocal (cfenv_getAppEnv h)
      then dotenv_parsed h ≫= fun parsed => parsed !! k
      else None
  end.
Proof.
  unfold loaded_env.
  destruct (isLocal (cfenv_getAppEnv h)).
  - destruct (dotenv_parsed h) as [parsed|]; cbn.
    + rewrite lookup_union. destruct (penv !! k), (parsed !! k); reflexivity.
    + destruct (penv !! k); reflexivity.
  - destruct (penv !! k); reflexivity.
Qed.

Lemma getConfig_process_env h e penv :
  snd (getConfig h e penv) = loaded_env h penv.
Proof.
  unfold_getConfig. unfold loaded_env.
  destruct (isLocal (cfenv_getAppEnv h)); [destruct (dotenv_parsed h)|];
    cbn [negb]; cbv beta iota zeta;
    repeat match goal with
      | |- context [match ?x with _ => _ end] =>
          match type of x with
          | option _ => destruct x
          | bool => destruct x
          end; cbv beta iota zeta
      end; reflexivity.
Qed.

Ltac step_getConfig H :=
  match type of H with
  | context [getServiceCreds ?a ?n] =>
      let E := fresh "Hcreds" in destruct (getServiceCreds a n) eqn:E
  | context [if includes ?l ?x then _ else _] =>
      let E := fresh "Hprod" in destruct (includes l x) eqn:E
  | context [match jsonfile_readFileSync ?h ?f with _ => _ end] =>
      let E := fresh "Hdoc" in destruct (jsonfile_readFileSync h f) eqn:E
  end; cbv beta iota zeta in H.

Ltac invert_getConfig H :=
  unfold_getConfig_in H;
  let El := fresh "Hlocal" in
  let Ed := fresh "Hdotenv" in
  destruct (isLocal (cfenv_getAppEnv _)) eqn:El;
    [destruct (dotenv_parsed _) eqn:Ed|];
    cbn [negb] in H; cbv beta iota zeta in H;
    repeat step_getConfig H;
    try discriminate H;
    injection H as <- <-.


(** ** Values *)

Lemma truthy_defined v : truthy v = true -> is_defined v = true.
Proof. destruct v; cbn; congruence. Qed.

Lemma or_default_defined v d :
  is_defined d = true -> is_defined (if truthy v then v else d) = true.
Proof. intros Hd. destruct (truthy v) eqn:E; [apply truthy_defined, E | exact Hd]. Qed.

Lemma truthy_js_and a b : truthy (js_and a b) = truthy a && truthy b.
Proof. unfold js_and. destruct (truthy a) eqn:E; cbn; [reflexivity | exact E]. Qed.

Lemma truthy_of_opt_str o :
  truthy (of_opt_str o) = true <-> exists s, o = Some s /\ s <> "".
Proof.
  destruct o as [s|]; cbn.
  - rewrite negb_true_iff. split.
    + intros E. exists s. split; [reflexivity|]. intros ->. discriminate E.
    + intros (s' & [= <-] & Hne). apply String.eqb_neq, Hne.
  - split; [discriminate | intros (s & [=] & _)].
Qed.

Lemma truthy_Some s : s <> "" -> truthy (of_opt_str (Some s)) = true.
Proof. intros Hne. apply truthy_of_opt_str. eauto. Qed.

Lemma get_prop_singleton k v : get_prop [(k, v)] k = v.
Proof. cbn. rewrite String.eqb_refl. reflexivity. Qed.

(** What [process.env.X && process.env.X === 'true'] evaluates to. *)
Lemma js_and_literal_true o :
  js_and (of_opt_str o) (VBool (strict_eq_str (of_opt_str o) "true")) =
  match o with
  | None => VUndefined
  | Some s => if s =? "" then VStr "" else VBool (s =? "true")
  end.
Proof.
  destruct o as [s|]; [|reflexivity].
  unfold js_and. cbn. destruct (String.eqb_spec s ""); cbn; [subst|]; reflexivity.
Qed.

Lemma literal_true_flag_intro o :
  literal_true_flag o
    match o with
    | None => VUndefined
    | Some s => if s =? "" then VStr "" else VBool (s =? "true")
    end.
Proof.
  unfold literal_true_flag. repeat split.
  - intros ->. reflexivity.
  - intros s -> Ht He.
    apply String.eqb_neq in Ht, He. rewrite Ht, He. reflexivity.
  - intros ->. reflexivity.
  - intros ->. reflexivity.
Qed.

Lemma includes_prod_envs s :
  includes ["prod"; "production"] s = true <-> s = "prod" \/ s = "production".
Proof.
  unfold includes. cbn [existsb].
  rewrite !orb_true_iff, !String.eqb_eq. intuition discriminate.
Qed.

(** ** Returning and throwing *)

Lemma service_name_eq penv :
  ToString
    (if truthy (of_opt_str (penv !! "ELASTICSEARCH_SERVICE_NAME"))
     then of_opt_str (penv !! "ELASTICSEARCH_SERVICE_NAME")
     else VStr "code_gov_elasticsearch") = service_name penv.
Proof.
  unfold service_name.
  destruct (penv !! "ELASTICSEARCH_SERVICE_NAME") as [name|]; cbn; [|reflexivity].
  destruct (name =? ""); reflexivity.
Qed.

(** [getConfig] returns a record as soon as the Swagger document of the
    environment can be read and, in non-local mode, the search service is
    bound. *)
Lemma getConfig_returns h e penv doc :
  jsonfile_readFileSync h
    (swagger_file h (includes ["prod"; "production"] (default "development" e)))
    = Some doc ->
  (isLocal (cfenv_getAppEnv h) = true \/
   is_Some (getServiceCreds (cfenv_getAppEnv h) (service_name (loaded_env h penv)))) ->
  exists cfg, getConfig h e penv = (inr cfg, loaded_env h penv).
Proof.
  unfold swagger_file, loaded_env. intros Hdoc Hes.
  unfold_getConfig.
  destruct (isLocal (cfenv_getAppEnv h)) eqn:Hlocal.
  - destruct (dotenv_parsed h) as [parsed|]; cbn [negb]; cbv beta iota zeta;
      destruct (includes _ _); rewrite Hdoc; eauto.
  - destruct Hes as [[=]|[creds Hcreds]].
    cbn [negb]; cbv beta iota zeta.
    rewrite service_name_eq, Hcreds. cbv beta iota zeta.
    destruct (includes _ _); rewrite Hdoc; eauto.
Qed.

(** C1. In non-local mode, when the platform has no bound service under
    the name looked up, [getConfig] does not return a record: reading [uri]
    from the [null] credentials throws a TypeError, whatever the environment
    name. *)
Theorem getConfig_throws_without_service h e penv :
  isLocal (cfenv_getAppEnv h) = false ->
  getServiceCreds (cfenv_getAppEnv h) (service_name penv) = None ->
  fst (getConfig h e penv) = inl (TypeError "Cannot read property 'uri' of null").
Proof.
  intros Hlocal Hcreds.
  unfold_getConfig. rewrite Hlocal. cbn [negb]; cbv beta iota zeta.
  rewrite service_name_eq, Hcreds. reflexivity.
Qed.

Lemma getConfig_throws_without_service_witness :
  isLocal (cfenv_getAppEnv Sample.unbound) = false /\
  getServiceCreds (cfenv_getAppEnv Sample.unbound) (service_name ∅) = None /\
  fst (getConfig Sample.unbound (Some "production") ∅) =
    inl (TypeError "Cannot read property 'uri' of null").
Proof.
  split; [reflexivity|]. split; [reflexivity|].
  apply (getConfig_throws_without_service Sample.unbound (Some "production") ∅);
    reflexivity.
Defined.

(** ** The fields of the record *)

(** C5. The production flag of the record is [true] when the environment
    name is exactly "prod" or exactly "production", and [false] for every
    other string. *)
Theorem isProd_exactly_prod_or_production h s penv cfg penv' :
  getConfig h (Some s) penv = (inr cfg, penv') ->
  (isProd cfg = VBool true <-> s = "prod" \/ s = "production") /\
  (isProd cfg = VBool false <-> ~ (s = "prod" \/ s = "production")).
Proof.
  intros H. rewrite <- includes_prod_envs.
  invert_getConfig H; cbn [isProd default from_option id] in *;
    rewrite Hprod; split; split; congruence.
Qed.

Lemma isProd_exactly_prod_or_production_witness :
  exists cfg penv',
    getConfig Sample.laptop (Some "Production") ∅ = (inr cfg, penv') /\
    (isProd cfg = VBool true <-> "Production" = "prod" \/ "Production" = "production") /\
    (isProd cfg = VBool false <-> ~ ("Production" = "prod" \/ "Production" = "production")).
Proof.
  eexists _, _. split; [vm_compute; reflexivity|].
  eapply (isProd_exactly_prod_or_production Sample.laptop "Production" ∅).
  vm_compute; reflexivity.
Defined.

(** C4 (as stated, refuted). With [HSTS_PRELOAD] unset the field is
    [undefined], not [false]. *)
Lemma HSTS_PRELOAD_unset_is_not_false :
  exists cfg,
    getConfig Sample.cloud None ∅ = (inr cfg, ∅) /\
    (∅ : gmap string string) !! "HSTS_PRELOAD" = None /\
    HSTS_PRELOAD cfg = VUndefined /\
    HSTS_PRELOAD cfg <> VBool false.
Proof.
  eexists. split; [vm_compute; reflexivity|].
  split; [reflexivity|]. split; [reflexivity | discriminate].
Qed.

(** C4 (amended). [HSTS_PRELOAD] is [true] when the variable of that name
    is exactly "true" and [false] for every other non-empty value; when the
    variable is empty the field is the empty string, and when it is unset the
    field is [undefined]. The same holds for [HSTS_SUBDOMAINS]. Neither
    depends on the environment name, so neither falls back to the production
    flag. *)
Theorem HSTS_flags_literal_true h e penv cfg penv' :
  getConfig h e penv = (inr cfg, penv') ->
  literal_true_flag (penv' !! "HSTS_PRELOAD") (HSTS_PRELOAD cfg) /\
  literal_true_flag (penv' !! "HSTS_SUBDOMAINS") (HSTS_SUBDOMAINS cfg).
Proof.
  intros H.
  invert_getConfig H; cbn [HSTS_PRELOAD HSTS_SUBDOMAINS];
    rewrite !js_and_literal_true; split; apply literal_true_flag_intro.
Qed.

Lemma HSTS_flags_literal_true_witness :
  exists cfg penv',
    getConfig Sample.cloud (Some "production")
      {[ "HSTS_PRELOAD" := "true"; "HSTS_SUBDOMAINS" := "TRUE" ]} = (inr cfg, penv') /\
    literal_true_flag (penv' !! "HSTS_PRELOAD") (HSTS_PRELOAD cfg) /\
    literal_true_flag (penv' !! "HSTS_SUBDOMAINS") (HSTS_SUBDOMAINS cfg).
Proof.
  eexists _, _. split; [vm_compute; reflexivity|].
  eapply (HSTS_flags_literal_true Sample.cloud (Some "production")
            {[ "HSTS_PRELOAD" := "true"; "HSTS_SUBDOMAINS" := "TRUE" ]}).
  vm_compute; reflexivity.
Defined.

Example HSTS_flags_production :
  exists cfg penv',
    getConfig Sample.cloud (Some "production")
      {[ "HSTS_PRELOAD" := "true"; "HSTS_SUBDOMAINS" := "TRUE" ]} = (inr cfg, penv') /\
    isProd cfg = VBool true /\
    HSTS_PRELOAD cfg = VBool true /\
    HSTS_SUBDOMAINS cfg = VBool false.
Proof. eexists _, _. vm_compute. repeat split. Qed.

(** C2 (as stated, refuted). A returned record whose [HSTS_PRELOAD],
    [HSTS_SUBDOMAINS] and [GET_REMOTE_METADATA] are [undefined]. *)
Lemma unset_flags_are_undefined :
  exists cfg,
    getConfig Sample.cloud (Some "development") ∅ = (inr cfg, ∅) /\
    is_defined (HSTS_PRELOAD cfg) = false /\
    is_defined (HSTS_SUBDOMAINS cfg) = false /\
    is_defined (GET_REMOTE_METADATA cfg) = false.
Proof. eexists. split; [vm_compute; reflexivity|]. repeat split. Qed.

Lemma literal_true_flag_defined o :
  is_defined
    match o with
    | None => VUndefined
    | Some s => if s =? "" then VStr "" else VBool (s =? "true")
    end = true <-> is_Some o.
Proof.
  destruct o as [s|]; cbn.
  - destruct (s =? ""); cbn; split; eauto.
  - split; [discriminate | intros [s [=]]].
Qed.

(** C2 (amended). In every record that [getConfig] returns, [isProd],
    [LOGGER_LEVEL], [TERM_TYPES_TO_SEARCH], [VALID_QUERY_PARAMS],
    [UPDATE_REPO_REGEX], [USE_HSTS], [HSTS_MAX_AGE], [PORT], [ES_HOST],
    [AGENCY_ENDPOINTS_FILE], [SWAGGER_DOCUMENT] and [ALLOWED_DOMAINS] are
    neither [undefined] nor [null]; each of [HSTS_PRELOAD],
    [HSTS_SUBDOMAINS] and [GET_REMOTE_METADATA] is so exactly when the
    variable of the same name is set. *)
Theorem fields_defined h e penv cfg penv' :
  getConfig h e penv = (inr cfg, penv') ->
  Forall (fun v => is_defined v = true)
    [isProd cfg; LOGGER_LEVEL cfg; TERM_TYPES_TO_SEARCH cfg;
     VALID_QUERY_PARAMS cfg; UPDATE_REPO_REGEX cfg; USE_HSTS cfg;
     HSTS_MAX_AGE cfg; PORT cfg; ES_HOST cfg; AGENCY_ENDPOINTS_FILE cfg;
     SWAGGER_DOCUMENT cfg; ALLOWED_DOMAINS cfg] /\
  (is_defined (HSTS_PRELOAD cfg) = true <-> is_Some (penv' !! "HSTS_PRELOAD")) /\
  (is_defined (HSTS_SUBDOMAINS cfg) = true <-> is_Some (penv' !! "HSTS_SUBDOMAINS")) /\
  (is_defined (GET_REMOTE_METADATA cfg) = true <->
     is_Some (penv' !! "GET_REMOTE_METADATA")).
Proof.
  intros H.
  invert_getConfig H;
    cbn [isProd LOGGER_LEVEL TERM_TYPES_TO_SEARCH VALID_QUERY_PARAMS
         UPDATE_REPO_REGEX USE_HSTS HSTS_MAX_AGE PORT ES_HOST
         AGENCY_ENDPOINTS_FILE SWAGGER_DOCUMENT ALLOWED_DOMAINS HSTS_PRELOAD
         HSTS_SUBDOMAINS GET_REMOTE_METADATA];
    rewrite !js_and_literal_true, !literal_true_flag_defined, ?get_prop_singleton;
    (split; [|tauto]);
    repeat (apply Forall_cons; split);
    try apply Forall_nil;
    repeat match goal with
      | |- is_defined (if truthy ?v then ?v else _) = true => apply or_default_defined
      | |- is_defined (if truthy (js_and ?a ?b) then ?b else _) = true =>
          let E := fresh in
          destruct (truthy (js_and a b)) eqn:E;
          [rewrite truthy_js_and in E; apply andb_true_iff in E;
           apply truthy_defined, E|]
      | |- is_defined (if ?c then _ else _) = true => destruct c
      end;
    reflexivity.
Qed.

Lemma fields_defined_witness :
  exists cfg penv',
    getConfig Sample.laptop None {[ "HSTS_PRELOAD" := "" ]} = (inr cfg, penv') /\
    Forall (fun v => is_defined v = true)
      [isProd cfg; LOGGER_LEVEL cfg; TERM_TYPES_TO_SEARCH cfg;
       VALID_QUERY_PARAMS cfg; UPDATE_REPO_REGEX cfg; USE_HSTS cfg;
       HSTS_MAX_AGE cfg; PORT cfg; ES_HOST cfg; AGENCY_ENDPOINTS_FILE cfg;
       SWAGGER_DOCUMENT cfg; ALLOWED_DOMAINS cfg] /\
    (is_defined (HSTS_PRELOAD cfg) = true <-> is_Some (penv' !! "HSTS_PRELOAD")) /\
    (is_defined (HSTS_SUBDOMAINS cfg) = true <-> is_Some (penv' !! "HSTS_SUBDOMAINS")) /\
    (is_defined (GET_REMOTE_METADATA cfg) = true <->
       is_Some (penv' !! "GET_REMOTE_METADATA")).
Proof.
  eexists _, _. split; [vm_compute; reflexivity|].
  eapply (fields_defined Sample.laptop None {[ "HSTS_PRELOAD" := "" ]}).
  vm_compute; reflexivity.
Defined.

(** What [getPort] answers: the text of [PORT] when it is set and not
    empty, else the platform's port when it has one other than 0, else
    3000. *)
Lemma PORT_resolved h e penv cfg penv' :
  getConfig h e penv = (inr cfg, penv') ->
  PORT cfg =
  match penv' !! "PORT" with
  | Some s =>
      if s =? ""
      then match port (cfenv_getAppEnv h) with
           | Some p => if (p =? 0)%Z then VNum (Num 3000) else VNum (Num p)
           | None => VNum (Num 3000)
           end
      else VStr s
  | None =>
      match port (cfenv_getAppEnv h) with
      | Some p => if (p =? 0)%Z then VNum (Num 3000) else VNum (Num p)
      | None => VNum (Num 3000)
      end
  end.
Proof.
  intros H.
  invert_getConfig H; cbn [PORT];
    match goal with
    | |- context [?m !! "PORT"] => destruct (m !! "PORT") as [s|]
    end; cbn;
    try destruct (s =? ""); cbn;
    destruct (port (cfenv_getAppEnv h)) as [p|]; cbn;
    try destruct (p =? 0)%Z; reflexivity.
Qed.

(** C6. With [PORT] set to "5000" the [PORT] field of the record is the
    string "5000", whatever port the platform reports; it is not the
    number 5000. *)
Theorem PORT_from_variable_is_a_string h e penv cfg penv' :
  getConfig h e penv = (inr cfg, penv') ->
  penv' !! "PORT" = Some "5000" ->
  PORT cfg = VStr "5000" /\ PORT cfg <> VNum (Num 5000).
Proof.
  intros H Hport. rewrite (PORT_resolved _ _ _ _ _ H), Hport.
  split; [reflexivity | discriminate].
Qed.

Lemma PORT_from_variable_is_a_string_witness :
  exists cfg penv',
    getConfig Sample.cloud None {[ "PORT" := "5000" ]} = (inr cfg, penv') /\
    penv' !! "PORT" = Some "5000" /\
    PORT cfg = VStr "5000" /\ PORT cfg <> VNum (Num 5000).
Proof.
  eexists _, _. split; [vm_compute; reflexivity|].
  split; [vm_compute; reflexivity|].
  eapply (PORT_from_variable_is_a_string Sample.cloud None {[ "PORT" := "5000" ]});
    vm_compute; reflexivity.
Defined.

(** With [PORT] unset: the platform's port, and 3000 when it has none. *)
Lemma PORT_from_platform h e penv cfg penv' :
  getConfig h e penv = (inr cfg, penv') ->
  penv' !! "PORT" = None ->
  (port (cfenv_getAppEnv h) = Some 8080%Z -> PORT cfg = VNum (Num 8080)) /\
  (port (cfenv_getAppEnv h) = None -> PORT cfg = VNum (Num 3000)).
Proof.
  intros H Hport. rewrite (PORT_resolved _ _ _ _ _ H), Hport.
  split; intros ->; reflexivity.
Qed.

(** C7. [ALLOWED_DOMAINS] has exactly three entries: the two localhost
    origins spelled with the resolved port, then "*" when the production
    flag is false and "https://api.data.gov" when it is true. *)
Theorem ALLOWED_DOMAINS_three_entries h e penv cfg penv' :
  getConfig h e penv = (inr cfg, penv') ->
  exists third,
    ALLOWED_DOMAINS cfg =
      VArr [VStr ("http://localhost:" ++ ToString (PORT cfg));
            VStr ("http://127.0.0.1:" ++ ToString (PORT cfg));
            VStr third] /\
    (isProd cfg = VBool false -> third = "*") /\
    (isProd cfg = VBool true -> third = "https://api.data.gov") /\
    (isProd cfg = VBool false \/ isProd cfg = VBool true).
Proof.
  intros H.
  invert_getConfig H; cbn [ALLOWED_DOMAINS PORT isProd app];
    eexists; (split; [reflexivity|]);
    repeat split; solve [discriminate | reflexivity | auto].
Qed.

Lemma ALLOWED_DOMAINS_three_entries_witness :
  exists cfg penv',
    getConfig Sample.laptop (Some "prod") {[ "PORT" := "5000" ]} = (inr cfg, penv') /\
    exists third,
      ALLOWED_DOMAINS cfg =
        VArr [VStr ("http://localhost:" ++ ToString (PORT cfg));
              VStr ("http://127.0.0.1:" ++ ToString (PORT cfg));
              VStr third] /\
      (isProd cfg = VBool false -> third = "*") /\
      (isProd cfg = VBool true -> third = "https://api.data.gov") /\
      (isProd cfg = VBool false \/ isProd cfg = VBool true).
Proof.
  eexists _, _. split; [vm_compute; reflexivity|].
  eapply (ALLOWED_DOMAINS_three_entries Sample.laptop (Some "prod") {[ "PORT" := "5000" ]}).
  vm_compute; reflexivity.
Defined.

Example ALLOWED_DOMAINS_laptop_prod :
  exists cfg penv',
    getConfig Sample.laptop (Some "prod") {[ "PORT" := "5000" ]} = (inr cfg, penv') /\
    ALLOWED_DOMAINS cfg =
      VArr [VStr "http://localhost:5000"; VStr "http://127.0.0.1:5000";
            VStr "https://api.data.gov"].
Proof. eexists _, _. vm_compute. split; reflexivity. Qed.

(** What [getAppFilesDirectories] selects: the remote location when both
    [GET_REMOTE_METADATA] and [REMOTE_METADATA_LOCATION] are set and not
    empty, else one of the two local documents, by [NODE_ENV]. *)
Lemma AGENCY_ENDPOINTS_FILE_resolved h e penv cfg penv' :
  getConfig h e penv = (inr cfg, penv') ->
  AGENCY_ENDPOINTS_FILE cfg =
  if truthy (of_opt_str (penv' !! "GET_REMOTE_METADATA")) &&
     truthy (of_opt_str (penv' !! "REMOTE_METADATA_LOCATION"))
  then of_opt_str (penv' !! "REMOTE_METADATA_LOCATION")
  else VStr (path_join h (path_dirname h (module_dirname h))
               (if bool_decide (penv' !! "NODE_ENV" = Some "testing")
                then "config/testing_agency_metadata.json"
                else "config/agency_metadata.json")).
Proof.
  intros H.
  invert_getConfig H; cbn [AGENCY_ENDPOINTS_FILE];
    rewrite ?get_prop_singleton, truthy_js_and;
    match goal with
    | |- context [?m !! "NODE_ENV"] => destruct (m !! "NODE_ENV") as [s|]
    end; cbn [of_opt_str strict_eq_str];
    try (destruct (String.eqb_spec s "testing") as [->|Hne];
         [rewrite bool_decide_eq_true_2 by reflexivity
         |rewrite bool_decide_eq_false_2 by congruence]);
    try rewrite bool_decide_eq_false_2 by discriminate;
    match goal with
    | |- context [if ?c then _ else _] => destruct c
    end; reflexivity.
Qed.

(** The remote-metadata toggle of the record compares the variable with
    the literal "true". *)
Lemma GET_REMOTE_METADATA_resolved h e penv cfg penv' :
  getConfig h e penv = (inr cfg, penv') ->
  literal_true_flag (penv' !! "GET_REMOTE_METADATA") (GET_REMOTE_METADATA cfg).
Proof.
  intros H.
  invert_getConfig H; cbn [GET_REMOTE_METADATA];
    rewrite js_and_literal_true; apply literal_true_flag_intro.
Qed.

(** C3. With [GET_REMOTE_METADATA] set to a non-empty string other than
    "true" (the remote-metadata toggle is then [false]) and
    [REMOTE_METADATA_LOCATION] set and not empty, [AGENCY_ENDPOINTS_FILE] is
    the remote location all the same, whatever [NODE_ENV] is. *)
Theorem remote_location_selected_without_toggle h e penv cfg penv' g loc :
  getConfig h e penv = (inr cfg, penv') ->
  penv' !! "GET_REMOTE_METADATA" = Some g -> g <> "" -> g <> "true" ->
  penv' !! "REMOTE_METADATA_LOCATION" = Some loc -> loc <> "" ->
  GET_REMOTE_METADATA cfg = VBool false /\
  AGENCY_ENDPOINTS_FILE cfg = VStr loc.
Proof.
  intros H Hg Hg1 Hg2 Hloc Hloc1. split.
  - destruct (GET_REMOTE_METADATA_resolved _ _ _ _ _ H) as (_ & Hflag & _).
    exact (Hflag g Hg Hg2 Hg1).
  - rewrite (AGENCY_ENDPOINTS_FILE_resolved _ _ _ _ _ H), Hg, Hloc.
    rewrite !truthy_Some by assumption. reflexivity.
Qed.

Lemma remote_location_selected_without_toggle_witness :
  exists cfg penv',
    getConfig Sample.cloud None
      {[ "GET_REMOTE_METADATA" := "false";
         "REMOTE_METADATA_LOCATION" := "https://example.gov/metadata.json";
         "NODE_ENV" := "testing" ]} = (inr cfg, penv') /\
    penv' !! "GET_REMOTE_METADATA" = Some "false" /\
    penv' !! "REMOTE_METADATA_LOCATION" = Some "https://example.gov/metadata.json" /\
    GET_REMOTE_METADATA cfg = VBool false /\
    AGENCY_ENDPOINTS_FILE cfg = VStr "https://example.gov/metadata.json".
Proof.
  eexists _, _. split; [vm_compute; reflexivity|].
  split; [vm_compute; reflexivity|]. split; [vm_compute; reflexivity|].
  eapply (remote_location_selected_without_toggle Sample.cloud None
            {[ "GET_REMOTE_METADATA" := "false";
               "REMOTE_METADATA_LOCATION" := "https://example.gov/metadata.json";
               "NODE_ENV" := "testing" ]});
    first [discriminate | vm_compute; reflexivity].
Defined.

(** ** Parsing [HSTS_MAX_AGE] *)

Lemma digits_prefix_Some radix s z :
  exists m, digits_prefix radix s (Some z) = Some m.
Proof.
  revert z. induction s as [|c s IH]; intros z; cbn.
  - eauto.
  - destruct (digit_value radix c); [apply IH | eauto].
Qed.

(** [parseInt] answers NaN exactly on the strings whose leading characters
    do not spell an integer. *)
Lemma parseInt_NaN_iff s : parseInt s = NaN <-> leading_integer s = false.
Proof.
  unfold parseInt, leading_integer.
  destruct (strip_sign (trim_start s)) as [sign s1].
  destruct (strip_hex_prefix s1) as [radix s2].
  destruct s2 as [|c s2]; cbn.
  - split; reflexivity.
  - destruct (digit_value radix c) as [d|].
    + destruct (digits_prefix_Some radix s2 (radix * 0 + d)) as [m ->].
      split; discriminate.
    + split; reflexivity.
Qed.

(** C10. When [HSTS_MAX_AGE] is set to a non-empty string whose leading
    characters do not spell an integer, the [HSTS_MAX_AGE] field is NaN and
    not 31536000; whenever the variable is set and not empty the field is
    what [parseInt] makes of it; the default 31536000 is taken when the
    variable is unset or empty. *)
Theorem HSTS_MAX_AGE_unparsable_is_NaN h e penv cfg penv' :
  getConfig h e penv = (inr cfg, penv') ->
  (forall s, penv' !! "HSTS_MAX_AGE" = Some s -> s <> "" ->
             leading_integer s = false ->
             HSTS_MAX_AGE cfg = VNum NaN /\
             HSTS_MAX_AGE cfg <> VNum (Num 31536000)) /\
  (forall s, penv' !! "HSTS_MAX_AGE" = Some s -> s <> "" ->
             HSTS_MAX_AGE cfg = VNum (parseInt s)) /\
  (penv' !! "HSTS_MAX_AGE" = None \/ penv' !! "HSTS_MAX_AGE" = Some "" ->
   HSTS_MAX_AGE cfg = VNum (Num 31536000)).
Proof.
  intros H.
  assert (forall s, penv' !! "HSTS_MAX_AGE" = Some s -> s <> "" ->
                    HSTS_MAX_AGE cfg = VNum (parseInt s)) as Hparse.
  { intros s Hs Hne.
    invert_getConfig H; cbn [HSTS_MAX_AGE]; rewrite Hs, truthy_Some by exact Hne;
      reflexivity. }
  split; [|split].
  - intros s Hs Hne Hlead. rewrite (Hparse s Hs Hne).
    apply parseInt_NaN_iff in Hlead. rewrite Hlead. split; [reflexivity | discriminate].
  - exact Hparse.
  - intros Hunset.
    invert_getConfig H; cbn [HSTS_MAX_AGE]; destruct Hunset as [-> | ->]; reflexivity.
Qed.

Lemma HSTS_MAX_AGE_unparsable_is_NaN_witness :
  exists cfg penv',
    getConfig Sample.cloud None {[ "HSTS_MAX_AGE" := "abc" ]} = (inr cfg, penv') /\
    penv' !! "HSTS_MAX_AGE" = Some "abc" /\
    leading_integer "abc" = false /\
    HSTS_MAX_AGE cfg = VNum NaN /\
    HSTS_MAX_AGE cfg <> VNum (Num 31536000).
Proof.
  eexists _, _. split; [vm_compute; reflexivity|].
  split; [vm_compute; reflexivity|]. split; [reflexivity|].
  eapply (HSTS_MAX_AGE_unparsable_is_NaN Sample.cloud None {[ "HSTS_MAX_AGE" := "abc" ]});
    first [discriminate | vm_compute; reflexivity].
Defined.

Example HSTS_MAX_AGE_parsed :
  exists cfg penv',
    getConfig Sample.cloud None {[ "HSTS_MAX_AGE" := "600 seconds" ]} = (inr cfg, penv') /\
    HSTS_MAX_AGE cfg = VNum (Num 600).
Proof. eexists _, _. vm_compute. split; reflexivity. Qed.

(** ** The version pattern *)

Lemma match_here_one_dot_zero s :
  match_here (RSeq (RChar "1") (RSeq (RChar ".") (RChar "0"))) s =
  match s with
  | String a (String b (String c t)) =>
      if Ascii.eqb "1" a && Ascii.eqb "." b && Ascii.eqb "0" c then [t] else []
  | _ => []
  end.
Proof.
  destruct s as [|a [|b [|c t]]]; cbn [match_here List.map List.concat app];
    try reflexivity;
    destruct (Ascii.eqb "1" a); cbn [match_here List.map List.concat app andb];
    try reflexivity;
    destruct (Ascii.eqb "." b); cbn [match_here List.map List.concat app andb];
    try reflexivity;
    destruct (Ascii.eqb "0" c); reflexivity.
Qed.

Lemma matches_at_update_repo_pattern s :
  matches_at update_repo_pattern s = true <-> exists q, s = ("1.0" ++ q)%string.
Proof.
  unfold matches_at, update_repo_pattern.
  change (match_here (RSeq (RGroup ?x) ?y) s)
    with (List.concat (List.map (match_here y) (match_here x s))).
  rewrite match_here_one_dot_zero.
  destruct s as [|a [|b [|c t]]];
    try (split; [discriminate | intros [q Hq]; discriminate Hq]).
  destruct (Ascii.eqb_spec "1" a) as [<-|Ha];
    [destruct (Ascii.eqb_spec "." b) as [<-|Hb];
     [destruct (Ascii.eqb_spec "0" c) as [<-|Hc]|]|];
    cbn [andb List.map List.concat app].
  - split; [intros _; exists t; reflexivity|].
    intros _.
    change (match_here (ROpt ?r) t) with (match_here r t ++ [t]).
    destruct (match_here (RGroup (RSeq (RChar ".") RDigit)) t); reflexivity.
  - split; [discriminate | intros [q Hq]; change ("1.0" ++ q)%string with (String "1" (String "." (String "0" q))) in Hq; congruence].
  - split; [discriminate | intros [q Hq]; change ("1.0" ++ q)%string with (String "1" (String "." (String "0" q))) in Hq; congruence].
  - split; [discriminate | intros [q Hq]; change ("1.0" ++ q)%string with (String "1" (String "." (String "0" q))) in Hq; congruence].
Qed.

Lemma regex_test_update_repo_pattern s :
  regex_test update_repo_pattern s = true <-> contains "1.0" s.
Proof.
  unfold contains. split.
  - induction s as [|a s IH]; intros H.
    + vm_compute in H. discriminate H.
    + cbn [regex_test] in H. apply orb_true_iff in H as [H|H].
      * apply matches_at_update_repo_pattern in H as [q Hq].
        exists "", q. exact Hq.
      * destruct (IH H) as (p & q & Hpq).
        exists (String a p), q. rewrite Hpq. reflexivity.
  - intros (p & q & ->). induction p as [|a p IH].
    + assert (matches_at update_repo_pattern ("1.0" ++ q) = true) as H
        by (apply matches_at_update_repo_pattern; eauto).
      change ("" ++ "1.0" ++ q)%string with (String "1" (String "." (String "0" q))).
      change ("1.0" ++ q)%string with (String "1" (String "." (String "0" q))) in H.
      cbn [regex_test]. rewrite H. reflexivity.
    + change (String a p ++ "1.0" ++ q)%string with (String a (p ++ "1.0" ++ q)).
      cbn [regex_test]. rewrite IH. apply orb_true_r.
Qed.

(** C8 (as stated, refuted). The pattern accepts a string with characters
    around the version, which is no version string, and rejects the version
    string "1.2". *)
Lemma update_repo_pattern_not_anchored :
  regex_test update_repo_pattern "x1.0y" = true /\
  spec_version_string "x1.0y" = false /\
  spec_version_string "1.2" = true /\
  regex_test update_repo_pattern "1.2" = false.
Proof. repeat split. Qed.

(** C8 (amended). [UPDATE_REPO_REGEX] is the same pattern in every record,
    [(1\.0)(\.\d)?]; tested against a string, it accepts exactly the strings
    that have "1.0" somewhere inside. *)
Theorem UPDATE_REPO_REGEX_fixed h e penv cfg penv' :
  getConfig h e penv = (inr cfg, penv') ->
  UPDATE_REPO_REGEX cfg = VRegExp update_repo_pattern /\
  regex_source update_repo_pattern = "(1\.0)(\.\d)?" /\
  forall s, regex_test update_repo_pattern s = true <-> contains "1.0" s.
Proof.
  intros H. split; [|split].
  - invert_getConfig H; reflexivity.
  - reflexivity.
  - exact regex_test_update_repo_pattern.
Qed.

Lemma UPDATE_REPO_REGEX_fixed_witness :
  exists cfg penv',
    getConfig Sample.laptop None ∅ = (inr cfg, penv') /\
    UPDATE_REPO_REGEX cfg = VRegExp update_repo_pattern /\
    regex_source update_repo_pattern = "(1\.0)(\.\d)?" /\
    forall s, regex_test update_repo_pattern s = true <-> contains "1.0" s.
Proof.
  eexists _, _. split; [vm_compute; reflexivity|].
  eapply (UPDATE_REPO_REGEX_fixed Sample.laptop None ∅).
  vm_compute; reflexivity.
Defined.

(** ** Calling twice *)

Lemma getConfig_result_from_loaded_env h e penv1 penv2 :
  loaded_env h penv1 = loaded_env h penv2 ->
  fst (getConfig h e penv1) = fst (getConfig h e penv2).
Proof.
  unfold loaded_env. unfold_getConfig.
  destruct (isLocal (cfenv_getAppEnv h)); [destruct (dotenv_parsed h)|];
    cbn [negb]; cbv beta iota zeta; intros ->; reflexivity.
Qed.

(** C9. Two calls of [getConfig] with the same environment name, the same
    platform snapshot and the same files end alike, with an identical record
    or the same error: both when the second call starts from the very
    [process.env] the first started from, and when it starts from the
    [process.env] the first call left behind, which it then changes no
    further. *)
Theorem getConfig_twice h e penv r penv' :
  getConfig h e penv = (r, penv') ->
  (forall r2 penv2, getConfig h e penv = (r2, penv2) -> r2 = r /\ penv2 = penv') /\
  getConfig h e penv' = (r, penv').
Proof.
  intros H. split.
  - intros r2 penv2 H2. rewrite H in H2. injection H2 as <- <-. split; reflexivity.
  - assert (penv' = loaded_env h penv) as ->
      by (rewrite <- getConfig_process_env with (e := e), H; reflexivity).
    assert (r = fst (getConfig h e penv)) as -> by (rewrite H; reflexivity).
    rewrite (surjective_pairing (getConfig h e (loaded_env h penv))).
    rewrite getConfig_process_env, loaded_env_idemp.
    f_equal. apply getConfig_result_from_loaded_env. apply loaded_env_idemp.
Qed.

Lemma getConfig_twice_witness :
  exists r penv',
    getConfig Sample.laptop (Some "prod") {[ "PORT" := "5000" ]} = (r, penv') /\
    penv' !! "LOGGER_LEVEL" = Some "WARN" /\
    (forall r2 penv2,
       getConfig Sample.laptop (Some "prod") {[ "PORT" := "5000" ]} = (r2, penv2) ->
       r2 = r /\ penv2 = penv') /\
    getConfig Sample.laptop (Some "prod") penv' = (r, penv').
Proof.
  eexists _, _. split; [vm_compute; reflexivity|].
  split; [vm_compute; reflexivity|].
  eapply (getConfig_twice Sample.laptop (Some "prod") {[ "PORT" := "5000" ]}).
  vm_compute; reflexivity.
Defined.

(** * Further properties of the module *)

(** ** The search endpoint *)

(** X1. In local mode [ES_HOST] is the [ES_URI] variable when that is set
    and not empty, and "http://localhost:9200" when it is unset or empty; the
    platform's service credentials play no part. *)
Theorem ES_HOST_local h e penv cfg penv' :
  getConfig h e penv = (inr cfg, penv') ->
  isLocal (cfenv_getAppEnv h) = true ->
  (forall u, penv' !! "ES_URI" = Some u -> u <> "" -> ES_HOST cfg = VStr u) /\
  (penv' !! "ES_URI" = None \/ penv' !! "ES_URI" = Some "" ->
   ES_HOST cfg = VStr "http://localhost:9200").
Proof.
  intros H Hl.
  invert_getConfig H; try discriminate Hl; cbn [ES_HOST];
    (split; [intros u -> Hne; rewrite truthy_Some by exact Hne; reflexivity
            | intros [-> | ->]; reflexivity]).
Qed.

Lemma ES_HOST_local_witness :
  exists cfg penv',
    getConfig Sample.laptop None {[ "ES_URI" := "http://10.0.0.7:9200" ]} = (inr cfg, penv') /\
    isLocal (cfenv_getAppEnv Sample.laptop) = true /\
    penv' !! "ES_URI" = Some "http://10.0.0.7:9200" /\
    ES_HOST cfg = VStr "http://10.0.0.7:9200".
Proof.
  eexists _, _. split; [vm_compute; reflexivity|].
  split; [reflexivity|]. split; [vm_compute; reflexivity|].
  eapply (ES_HOST_local Sample.laptop None {[ "ES_URI" := "http://10.0.0.7:9200" ]});
    first [discriminate | vm_compute; reflexivity].
Defined.

(** X2. In non-local mode a returned record has its [ES_HOST] from the
    credentials of the service named by [ELASTICSEARCH_SERVICE_NAME] (by
    "code_gov_elasticsearch" when that is unset or empty): their [uri] when
    it is truthy, "http://localhost:9200" otherwise. [ES_URI] is not looked
    at. *)
Theorem ES_HOST_from_service h e penv cfg penv' :
  getConfig h e penv = (inr cfg, penv') ->
  isLocal (cfenv_getAppEnv h) = false ->
  exists creds,
    getServiceCreds (cfenv_getAppEnv h) (service_name penv') = Some creds /\
    (truthy (get_prop creds "uri") = true -> ES_HOST cfg = get_prop creds "uri") /\
    (truthy (get_prop creds "uri") = false ->
     ES_HOST cfg = VStr "http://localhost:9200").
Proof.
  intros H Hl.
  invert_getConfig H; try discriminate Hl; cbn [ES_HOST];
    rewrite service_name_eq in Hcreds; eexists; (split; [exact Hcreds|]);
    split; intros ->; reflexivity.
Qed.

Lemma ES_HOST_from_service_witness :
  exists cfg penv',
    getConfig Sample.cloud None {[ "ES_URI" := "http://10.0.0.7:9200" ]} = (inr cfg, penv') /\
    isLocal (cfenv_getAppEnv Sample.cloud) = false /\
    ES_HOST cfg = VStr "http://es.internal:9200" /\
    exists creds,
      getServiceCreds (cfenv_getAppEnv Sample.cloud) (service_name penv') = Some creds /\
      (truthy (get_prop creds "uri") = true -> ES_HOST cfg = get_prop creds "uri") /\
      (truthy (get_prop creds "uri") = false ->
       ES_HOST cfg = VStr "http://localhost:9200").
Proof.
  eexists _, _. split; [vm_compute; reflexivity|].
  split; [reflexivity|]. split; [reflexivity|].
  eapply (ES_HOST_from_service Sample.cloud None {[ "ES_URI" := "http://10.0.0.7:9200" ]});
    vm_compute; reflexivity.
Defined.

(** X3. In every returned record [LOGGER_LEVEL], [PORT] and [ES_HOST] are
    truthy: none of them is ever an empty string, 0, NaN, [null] or
    [undefined]. *)
Theorem fallbacks_leave_truthy_values h e penv cfg penv' :
  getConfig h e penv = (inr cfg, penv') ->
  truthy (LOGGER_LEVEL cfg) = true /\
  truthy (PORT cfg) = true /\
  truthy (ES_HOST cfg) = true.
Proof.
  intros H.
  invert_getConfig H; cbn [LOGGER_LEVEL PORT ES_HOST]; repeat split;
    repeat match goal with
      | |- truthy (if truthy ?v then ?v else _) = true =>
          let E := fresh in destruct (truthy v) eqn:E; [exact E|]
      end; reflexivity.
Qed.

Lemma fallbacks_leave_truthy_values_witness :
  exists cfg penv',
    getConfig Sample.laptop None {[ "PORT" := ""; "LOGGER_LEVEL" := "" ]} = (inr cfg, penv') /\
    truthy (LOGGER_LEVEL cfg) = true /\
    truthy (PORT cfg) = true /\
    truthy (ES_HOST cfg) = true.
Proof.
  eexists _, _. split; [vm_compute; reflexivity|].
  eapply (fallbacks_leave_truthy_values Sample.laptop None
            {[ "PORT" := ""; "LOGGER_LEVEL" := "" ]}).
  vm_compute; reflexivity.
Defined.

(** ** Logging and HSTS *)

(** X4. [LOGGER_LEVEL] is the variable of that name when it is set and not
    empty; otherwise it is "INFO" under the production flag and "DEBUG"
    without it. *)
Theorem LOGGER_LEVEL_resolved h e penv cfg penv' :
  getConfig h e penv = (inr cfg, penv') ->
  (forall l, penv' !! "LOGGER_LEVEL" = Some l -> l <> "" ->
             LOGGER_LEVEL cfg = VStr l) /\
  (penv' !! "LOGGER_LEVEL" = None \/ penv' !! "LOGGER_LEVEL" = Some "" ->
   (isProd cfg = VBool true -> LOGGER_LEVEL cfg = VStr "INFO") /\
   (isProd cfg = VBool false -> LOGGER_LEVEL cfg = VStr "DEBUG")).
Proof.
  intros H.
  invert_getConfig H; cbn [LOGGER_LEVEL isProd];
    (split;
     [intros l -> Hne; rewrite truthy_Some by exact Hne; reflexivity
     |intros [-> | ->]; split; intros [=]; reflexivity]).
Qed.

Lemma LOGGER_LEVEL_resolved_witness :
  exists cfg penv',
    getConfig Sample.cloud (Some "production") {[ "LOGGER_LEVEL" := "" ]} = (inr cfg, penv') /\
    penv' !! "LOGGER_LEVEL" = Some "" /\
    isProd cfg = VBool true /\
    LOGGER_LEVEL cfg = VStr "INFO".
Proof.
  eexists _, _. split; [vm_compute; reflexivity|].
  split; [vm_compute; reflexivity|]. split; [reflexivity|].
  eapply (LOGGER_LEVEL_resolved Sample.cloud (Some "production") {[ "LOGGER_LEVEL" := "" ]});
    first [right; vm_compute; reflexivity | vm_compute; reflexivity].
Defined.

(** X5. [USE_HSTS] is always a boolean. When the variable of that name is
    set and not empty it says whether the variable is exactly "true", so
    that any other text switches HSTS off even under the production flag;
    when the variable is unset or empty it is the production flag. *)
Theorem USE_HSTS_resolved h e penv cfg penv' :
  getConfig h e penv = (inr cfg, penv') ->
  (exists b, USE_HSTS cfg = VBool b) /\
  (forall u, penv' !! "USE_HSTS" = Some u -> u <> "" ->
             USE_HSTS cfg = VBool (u =? "true")) /\
  (penv' !! "USE_HSTS" = None \/ penv' !! "USE_HSTS" = Some "" ->
   USE_HSTS cfg = isProd cfg).
Proof.
  intros H.
  invert_getConfig H; cbn [USE_HSTS isProd];
    (split;
     [destruct (truthy (of_opt_str (_ !! "USE_HSTS"))); eexists; reflexivity
     |split;
      [intros u -> Hne; rewrite truthy_Some by exact Hne; reflexivity
      |intros [-> | ->]; reflexivity]]).
Qed.

Lemma USE_HSTS_resolved_witness :
  exists cfg penv',
    getConfig Sample.cloud (Some "production") {[ "USE_HSTS" := "yes" ]} = (inr cfg, penv') /\
    isProd cfg = VBool true /\
    USE_HSTS cfg = VBool false /\
    (exists b, USE_HSTS cfg = VBool b) /\
    (forall u, penv' !! "USE_HSTS" = Some u -> u <> "" ->
               USE_HSTS cfg = VBool (u =? "true")) /\
    (penv' !! "USE_HSTS" = None \/ penv' !! "USE_HSTS" = Some "" ->
     USE_HSTS cfg = isProd cfg).
Proof.
  eexists _, _. split; [vm_compute; reflexivity|].
  split; [reflexivity|]. split; [reflexivity|].
  eapply (USE_HSTS_resolved Sample.cloud (Some "production") {[ "USE_HSTS" := "yes" ]}).
  vm_compute; reflexivity.
Defined.

(** ** The port *)

(** X6. [PORT] is the text of the [PORT] variable, whatever it spells, when
    that is set and not empty. An empty [PORT] counts as unset: the field is
    then the platform's port, unless that is absent or 0, in which case it is
    3000. *)
Theorem PORT_fallthrough h e penv cfg penv' :
  getConfig h e penv = (inr cfg, penv') ->
  (forall s, penv' !! "PORT" = Some s -> s <> "" -> PORT cfg = VStr s) /\
  (penv' !! "PORT" = None \/ penv' !! "PORT" = Some "" ->
   (forall p, port (cfenv_getAppEnv h) = Some p -> p <> 0%Z ->
              PORT cfg = VNum (Num p)) /\
   (port (cfenv_getAppEnv h) = None \/ port (cfenv_getAppEnv h) = Some 0%Z ->
    PORT cfg = VNum (Num 3000))).
Proof.
  intros H. rewrite (PORT_resolved _ _ _ _ _ H). split.
  - intros s -> Hne. apply String.eqb_neq in Hne. rewrite Hne. reflexivity.
  - intros Hunset.
    assert (forall v : value,
              match penv' !! "PORT" with
              | Some s => if s =? "" then v else VStr s
              | None => v
              end = v) as Hv by (intros v; destruct Hunset as [-> | ->]; reflexivity).
    rewrite Hv. split.
    + intros p -> Hp. apply Z.eqb_neq in Hp. rewrite Hp. reflexivity.
    + intros [-> | ->]; reflexivity.
Qed.

Lemma PORT_fallthrough_witness :
  exists cfg penv',
    getConfig Sample.cloud None {[ "PORT" := "" ]} = (inr cfg, penv') /\
    penv' !! "PORT" = Some "" /\
    port (cfenv_getAppEnv Sample.cloud) = Some 8080%Z /\
    PORT cfg = VNum (Num 8080).
Proof.
  eexists _, _. split; [vm_compute; reflexivity|].
  split; [vm_compute; reflexivity|]. split; [reflexivity|].
  eapply (PORT_fallthrough Sample.cloud None {[ "PORT" := "" ]});
    first [right; vm_compute; reflexivity | discriminate | vm_compute; reflexivity].
Defined.

(** ** The API documentation descriptor *)

Lemma get_prop_set_prop_eq o k v : get_prop (set_prop o k v) k = v.
Proof.
  induction o as [|[k' v'] o IH]; cbn.
  - rewrite String.eqb_refl. reflexivity.
  - destruct (String.eqb_spec k' k) as [->|Hne]; cbn.
    + rewrite String.eqb_refl. reflexivity.
    + apply String.eqb_neq in Hne. rewrite Hne. exact IH.
Qed.

Lemma get_prop_set_prop_ne o k v k' :
  k' <> k -> get_prop (set_prop o k v) k' = get_prop o k'.
Proof.
  intros Hne. induction o as [|[k0 v0] o IH]; cbn.
  - apply not_eq_sym, String.eqb_neq in Hne. rewrite Hne. reflexivity.
  - destruct (String.eqb_spec k0 k) as [->|Hk]; cbn.
    + apply not_eq_sym, String.eqb_neq in Hne. rewrite Hne. reflexivity.
    + destruct (k0 =? k'); [reflexivity | exact IH].
Qed.

Lemma append_nonempty_r (a b : string) : b <> "" -> (a ++ b)%string <> "".
Proof.
  intros Hb. destruct a as [|c a].
  - exact Hb.
  - discriminate.
Qed.

Lemma append_nonempty_l (a b : string) : a <> "" -> (a ++ b)%string <> "".
Proof.
  intros Ha. destruct a as [|c a]; [congruence | discriminate].
Qed.

(** X7. The [SWAGGER_DOCUMENT] of a returned record is the document of
    [swagger-prod.json] under the production flag and of [swagger.json]
    without it, with its [host] property overwritten and every other
    property as it is in the file. *)
Theorem SWAGGER_DOCUMENT_from_file h e penv cfg penv' :
  getConfig h e penv = (inr cfg, penv') ->
  exists prod file_doc doc,
    isProd cfg = VBool prod /\
    jsonfile_readFileSync h (swagger_file h prod) = Some file_doc /\
    SWAGGER_DOCUMENT cfg = VObj doc /\
    forall k, k <> "host" -> get_prop doc k = get_prop file_doc k.
Proof.
  intros H. unfold swagger_file.
  invert_getConfig H; cbn [isProd SWAGGER_DOCUMENT];
    eexists _, _, _;
    (split; [reflexivity|]); (split; [exact Hdoc|]); (split; [reflexivity|]);
    intros k Hk; apply get_prop_set_prop_ne, Hk.
Qed.

Lemma SWAGGER_DOCUMENT_from_file_witness :
  exists cfg penv',
    getConfig Sample.cloud (Some "prod") ∅ = (inr cfg, penv') /\
    exists prod file_doc doc,
      isProd cfg = VBool prod /\
      jsonfile_readFileSync Sample.cloud (swagger_file Sample.cloud prod) = Some file_doc /\
      SWAGGER_DOCUMENT cfg = VObj doc /\
      forall k, k <> "host" -> get_prop doc k = get_prop file_doc k.
Proof.
  eexists _, _. split; [vm_compute; reflexivity|].
  eapply (SWAGGER_DOCUMENT_from_file Sample.cloud (Some "prod") ∅).
  vm_compute; reflexivity.
Defined.

(** X8. The [host] of [SWAGGER_DOCUMENT] is the [API_URL] variable when
    that is set and not empty. Otherwise, when the platform has a list of
    URIs, it is the first of them followed by "/api", and "undefined/api"
    when the list is empty; when it has none, it is "0.0.0.0:" followed by
    the resolved port. The "api.code.gov" fallback of [getSwaggerConf] is
    never what decides it. *)
Theorem SWAGGER_DOCUMENT_host h e penv cfg penv' :
  getConfig h e penv = (inr cfg, penv') ->
  exists doc,
    SWAGGER_DOCUMENT cfg = VObj doc /\
    (forall u, penv' !! "API_URL" = Some u -> u <> "" ->
               get_prop doc "host" = VStr u) /\
    (penv' !! "API_URL" = None \/ penv' !! "API_URL" = Some "" ->
     (forall u uris, app_uris (cfenv_getAppEnv h) = Some (u :: uris) ->
                     get_prop doc "host" = VStr (u ++ "/api")) /\
     (app_uris (cfenv_getAppEnv h) = Some [] ->
      get_prop doc "host" = VStr "undefined/api") /\
     (app_uris (cfenv_getAppEnv h) = None ->
      get_prop doc "host" = VStr ("0.0.0.0:" ++ ToString (PORT cfg)))).
Proof.
  intros H.
  invert_getConfig H; cbn [SWAGGER_DOCUMENT PORT];
    eexists; (split; [reflexivity|]); rewrite get_prop_set_prop_eq;
    (split;
     [intros u -> Hne; rewrite !truthy_Some by exact Hne; reflexivity
     |intros Hunset;
      assert (truthy (of_opt_str (_ !! "API_URL")) = false) as ->
        by (destruct Hunset as [-> | ->]; reflexivity);
      repeat split;
      [intros u uris ->; cbn [List.map nth ToString];
       assert (truthy (VStr (u ++ "/api")) = true) as ->
         by (cbn; apply negb_true_iff, String.eqb_neq, append_nonempty_r; discriminate);
       reflexivity
      |intros ->; reflexivity
      |intros ->;
       match goal with
       | |- (if truthy (VStr ?s) then _ else _) = _ =>
           assert (truthy (VStr s) = true) as ->
             by (cbn; apply negb_true_iff, String.eqb_neq, append_nonempty_l; discriminate)
       end; reflexivity]]).
Qed.

Lemma SWAGGER_DOCUMENT_host_witness :
  exists cfg penv',
    getConfig Sample.laptop None {[ "PORT" := "5000" ]} = (inr cfg, penv') /\
    (exists doc, SWAGGER_DOCUMENT cfg = VObj doc /\
                 get_prop doc "host" = VStr "0.0.0.0:5000") /\
    exists doc,
      SWAGGER_DOCUMENT cfg = VObj doc /\
      (forall u, penv' !! "API_URL" = Some u -> u <> "" ->
                 get_prop doc "host" = VStr u) /\
      (penv' !! "API_URL" = None \/ penv' !! "API_URL" = Some "" ->
       (forall u uris, app_uris (cfenv_getAppEnv Sample.laptop) = Some (u :: uris) ->
                       get_prop doc "host" = VStr (u ++ "/api")) /\
       (app_uris (cfenv_getAppEnv Sample.laptop) = Some [] ->
        get_prop doc "host" = VStr "undefined/api") /\
       (app_uris (cfenv_getAppEnv Sample.laptop) = None ->
        get_prop doc "host" = VStr ("0.0.0.0:" ++ ToString (PORT cfg)))).
Proof.
  eexists _, _. split; [vm_compute; reflexivity|].
  split; [eexists; split; reflexivity|].
  eapply (SWAGGER_DOCUMENT_host Sample.laptop None {[ "PORT" := "5000" ]}).
  vm_compute; reflexivity.
Defined.

(** ** Errors and what is read *)

(** X9. When the Swagger document of the environment cannot be read, and
    the search endpoint could be resolved (local mode, or the service is
    bound), [getConfig] throws the read error of that very file:
    [swagger-prod.json] for "prod" and "production", [swagger.json] for any
    other name. *)
Theorem getConfig_throws_unreadable_document h e penv :
  jsonfile_readFileSync h
    (swagger_file h (includes ["prod"; "production"] (default "development" e)))
    = None ->
  (isLocal (cfenv_getAppEnv h) = true \/
   is_Some (getServiceCreds (cfenv_getAppEnv h) (service_name penv))) ->
  fst (getConfig h e penv) =
    inl (ReadError
           (swagger_file h (includes ["prod"; "production"] (default "development" e)))).
Proof.
  unfold swagger_file. intros Hdoc Hes. unfold_getConfig.
  destruct (isLocal (cfenv_getAppEnv h)) eqn:Hlocal.
  - destruct (dotenv_parsed h) as [parsed|]; cbn [negb]; cbv beta iota zeta;
      destruct (includes _ _); rewrite Hdoc; reflexivity.
  - destruct Hes as [[=]|[creds Hcreds]].
    cbn [negb]; cbv beta iota zeta.
    rewrite service_name_eq, Hcreds. cbv beta iota zeta.
    destruct (includes _ _); rewrite Hdoc; reflexivity.
Qed.

Lemma getConfig_throws_unreadable_document_witness :
  jsonfile_readFileSync (with_documents Sample.laptop (fun _ => None))
    (swagger_file (with_documents Sample.laptop (fun _ => None)) true) = None /\
  isLocal (cfenv_getAppEnv (with_documents Sample.laptop (fun _ => None))) = true /\
  fst (getConfig (with_documents Sample.laptop (fun _ => None)) (Some "prod") ∅) =
    inl (ReadError "/srv/api/./swagger-prod.json").
Proof.
  split; [reflexivity|]. split; [reflexivity|].
  apply (getConfig_throws_unreadable_document
           (with_documents Sample.laptop (fun _ => None)) (Some "prod") ∅);
    [reflexivity | left; reflexivity].
Defined.

(** X10. [getConfig] reads no other document than the Swagger document of
    its environment: with any other files on disk, as long as that one
    document reads the same, the call ends the same. *)
Theorem getConfig_reads_one_document h e penv files :
  files (swagger_file h (includes ["prod"; "production"] (default "development" e)))
  = jsonfile_readFileSync h
      (swagger_file h (includes ["prod"; "production"] (default "development" e))) ->
  getConfig (with_documents h files) e penv = getConfig h e penv.
Proof.
  unfold swagger_file. intros Hsame. unfold_getConfig.
  cbn [with_documents module_dirname path_dirname path_join cfenv_getAppEnv
       dotenv_parsed jsonfile_readFileSync].
  destruct (includes _ _); rewrite Hsame; reflexivity.
Qed.

Lemma getConfig_reads_one_document_witness :
  (fun file => if file =? "/srv/api/./swagger.json"
               then Sample.documents file else None)
    (swagger_file Sample.cloud false)
  = jsonfile_readFileSync Sample.cloud (swagger_file Sample.cloud false) /\
  getConfig
    (with_documents Sample.cloud
       (fun file => if file =? "/srv/api/./swagger.json"
                    then Sample.documents file else None))
    (Some "staging") ∅
  = getConfig Sample.cloud (Some "staging") ∅.
Proof.
  split; [reflexivity|].
  apply (getConfig_reads_one_document Sample.cloud (Some "staging") ∅
           (fun file => if file =? "/srv/api/./swagger.json"
                        then Sample.documents file else None)).
  reflexivity.
Defined.

(** X11. In non-local mode [getConfig] leaves [process.env] as it found it,
    whether it returns or throws, and the [.env] file has no influence on
    how the call ends. *)
Theorem getConfig_non_local_ignores_dotenv h e penv parsed :
  isLocal (cfenv_getAppEnv h) = false ->
  snd (getConfig h e penv) = penv /\
  getConfig (with_dotenv h parsed) e penv = getConfig h e penv.
Proof.
  intros Hl. split.
  - rewrite getConfig_process_env. unfold loaded_env. rewrite Hl. reflexivity.
  - unfold_getConfig.
    cbn [with_dotenv module_dirname path_dirname path_join cfenv_getAppEnv
         dotenv_parsed jsonfile_readFileSync].
    rewrite Hl. reflexivity.
Qed.

Lemma getConfig_non_local_ignores_dotenv_witness :
  isLocal (cfenv_getAppEnv Sample.cloud) = false /\
  snd (getConfig Sample.cloud None {[ "PORT" := "5000" ]}) = {[ "PORT" := "5000" ]} /\
  getConfig (with_dotenv Sample.cloud (Some {[ "PORT" := "9000"; "API_URL" := "x" ]}))
    None {[ "PORT" := "5000" ]}
  = getConfig Sample.cloud None {[ "PORT" := "5000" ]}.
Proof.
  split; [reflexivity|].
  apply (getConfig_non_local_ignores_dotenv Sample.cloud None {[ "PORT" := "5000" ]}
           (Some {[ "PORT" := "9000"; "API_URL" := "x" ]})).
  reflexivity.
Defined.

(** X12. The environment name matters only through the production flag:
    two names that are both among "prod" and "production", or both outside,
    make [getConfig] end the same; a call without a name ends as one with
    any name outside. *)
Theorem getConfig_name_only_through_flag h e1 e2 penv :
  includes ["prod"; "production"] (default "development" e1) =
  includes ["prod"; "production"] (default "development" e2) ->
  getConfig h e1 penv = getConfig h e2 penv.
Proof.
  intros Hsame. unfold_getConfig. rewrite Hsame. reflexivity.
Qed.

Lemma getConfig_name_only_through_flag_witness :
  includes ["prod"; "production"] (default "development" None) =
  includes ["prod"; "production"] (default "development" (Some "testing")) /\
  getConfig Sample.laptop None {[ "NODE_ENV" := "production" ]} =
  getConfig Sample.laptop (Some "testing") {[ "NODE_ENV" := "production" ]}.
Proof.
  split; [reflexivity|].
  apply (getConfig_name_only_through_flag Sample.laptop None (Some "testing")).
  reflexivity.
Defined.

(** ** Decimal numerals *)














(** ** The metadata file *)

(** X14. Which metadata file is selected does not depend on the
    environment name, only on variables: the remote location when both
    [GET_REMOTE_METADATA] and [REMOTE_METADATA_LOCATION] are set and not
    empty; otherwise the testing document when [NODE_ENV] is exactly
    "testing" and the standard document in every other case. *)
Theorem AGENCY_ENDPOINTS_FILE_selection h e penv cfg penv' :
  getConfig h e penv = (inr cfg, penv') ->
  (forall g loc,
     penv' !! "GET_REMOTE_METADATA" = Some g -> g <> "" ->
     penv' !! "REMOTE_METADATA_LOCATION" = Some loc -> loc <> "" ->
     AGENCY_ENDPOINTS_FILE cfg = VStr loc) /\
  (penv' !! "GET_REMOTE_METADATA" = None \/
   penv' !! "GET_REMOTE_METADATA" = Some "" \/
   penv' !! "REMOTE_METADATA_LOCATION" = None \/
   penv' !! "REMOTE_METADATA_LOCATION" = Some "" ->
   (penv' !! "NODE_ENV" = Some "testing" ->
    AGENCY_ENDPOINTS_FILE cfg =
      VStr (path_join h (path_dirname h (module_dirname h))
              "config/testing_agency_metadata.json")) /\
   (penv' !! "NODE_ENV" <> Some "testing" ->
    AGENCY_ENDPOINTS_FILE cfg =
      VStr (path_join h (path_dirname h (module_dirname h))
              "config/agency_metadata.json"))).
Proof.
  intros H. rewrite (AGENCY_ENDPOINTS_FILE_resolved _ _ _ _ _ H). split.
  - intros g loc -> Hg -> Hloc. rewrite !truthy_Some by assumption. reflexivity.
  - intros Hunset.
    assert (truthy (of_opt_str (penv' !! "GET_REMOTE_METADATA")) &&
            truthy (of_opt_str (penv' !! "REMOTE_METADATA_LOCATION")) = false) as ->.
    { destruct Hunset as [-> | [-> | [-> | ->]]];
        try reflexivity; apply andb_false_r. }
    split; intros Hn.
    + rewrite bool_decide_eq_true_2 by exact Hn. reflexivity.
    + rewrite bool_decide_eq_false_2 by exact Hn. reflexivity.
Qed.

Lemma AGENCY_ENDPOINTS_FILE_selection_witness :
  exists cfg penv',
    getConfig Sample.cloud (Some "testing") ∅ = (inr cfg, penv') /\
    penv' !! "GET_REMOTE_METADATA" = None /\
    penv' !! "NODE_ENV" <> Some "testing" /\
    AGENCY_ENDPOINTS_FILE cfg = VStr "/srv/api/config/agency_metadata.json".
Proof.
  eexists _, _. split; [vm_compute; reflexivity|].
  split; [reflexivity|]. split; [discriminate|].
  eapply (AGENCY_ENDPOINTS_FILE_selection Sample.cloud (Some "testing") ∅);
    first [left; reflexivity | discriminate | vm_compute; reflexivity].
Defined.

(** ** The record as a whole *)





(** X17. Taken as conditions, the three flags computed with [&&] are
    faithful: each of [HSTS_PRELOAD], [HSTS_SUBDOMAINS] and
    [GET_REMOTE_METADATA] is truthy exactly when the variable of the same
    name is the string "true". *)
Theorem flags_truthy_iff_literal_true h e penv cfg penv' :
  getConfig h e penv = (inr cfg, penv') ->
  (truthy (HSTS_PRELOAD cfg) = true <-> penv' !! "HSTS_PRELOAD" = Some "true") /\
  (truthy (HSTS_SUBDOMAINS cfg) = true <-> penv' !! "HSTS_SUBDOMAINS" = Some "true") /\
  (truthy (GET_REMOTE_METADATA cfg) = true <->
     penv' !! "GET_REMOTE_METADATA" = Some "true").
Proof.
  intros H.
  assert (forall o : option string,
            truthy match o with
                   | None => VUndefined
                   | Some s => if s =? "" then VStr "" else VBool (s =? "true")
                   end = true <-> o = Some "true") as Hflag.
  { intros [s|]; cbn; [|split; discriminate].
    destruct (String.eqb_spec s "") as [->|_]; cbn; [split; discriminate|].
    rewrite String.eqb_eq. split; [intros ->; reflexivity | intros [= ->]; reflexivity]. }
  invert_getConfig H; cbn [HSTS_PRELOAD HSTS_SUBDOMAINS GET_REMOTE_METADATA];
    rewrite !js_and_literal_true; repeat split; apply Hflag.
Qed.

Lemma flags_truthy_iff_literal_true_witness :
  exists cfg penv',
    getConfig Sample.cloud None {[ "HSTS_PRELOAD" := "true"; "HSTS_SUBDOMAINS" := "1" ]}
      = (inr cfg, penv') /\
    truthy (HSTS_PRELOAD cfg) = true /\
    truthy (HSTS_SUBDOMAINS cfg) = false /\
    (truthy (HSTS_PRELOAD cfg) = true <-> penv' !! "HSTS_PRELOAD" = Some "true") /\
    (truthy (HSTS_SUBDOMAINS cfg) = true <-> penv' !! "HSTS_SUBDOMAINS" = Some "true") /\
    (truthy (GET_REMOTE_METADATA cfg) = true <->
       penv' !! "GET_REMOTE_METADATA" = Some "true").
Proof.
  eexists _, _. split; [vm_compute; reflexivity|].
  split; [reflexivity|]. split; [reflexivity|].
  eapply (flags_truthy_iff_literal_true Sample.cloud None
            {[ "HSTS_PRELOAD" := "true"; "HSTS_SUBDOMAINS" := "1" ]}).
  vm_compute; reflexivity.
Defined.

(** ** The helpers on their own *)

(** X18. [getSwaggerConf] stamps the URL it is given on the [host] of the
    document it reads, and "api.code.gov" when that URL is falsy
    ([undefined], the empty string); it throws the read error of the file
    when the document cannot be read. *)
Theorem getSwaggerConf_host h prod api_url penv :
  match jsonfile_readFileSync h (swagger_file h prod) with
  | Some file_doc =>
      exists doc,
        fst (getSwaggerConf h prod api_url penv) = inr (VObj doc) /\
        (truthy api_url = true -> get_prop doc "host" = api_url) /\
        (truthy api_url = false -> get_prop doc "host" = VStr "api.code.gov") /\
        (forall k, k <> "host" -> get_prop doc k = get_prop file_doc k)
  | None =>
      fst (getSwaggerConf h prod api_url penv) = inl (ReadError (swagger_file h prod))
  end.
Proof.
  unfold swagger_file, getSwaggerConf, readFileSync, throw.
  unfold mbind, mret, M_bind, M_ret.
  destruct prod;
    match goal with
    | |- context [jsonfile_readFileSync h ?f] =>
        destruct (jsonfile_readFileSync h f) as [file_doc|]
    end; cbv beta iota zeta; try reflexivity;
    eexists; (split; [reflexivity|]); rewrite get_prop_set_prop_eq;
    (split; [intros ->; reflexivity|]); (split; [intros ->; reflexivity|]);
    intros k Hk; apply get_prop_set_prop_ne, Hk.
Qed.

(** X19. Apart from the loading of the [.env] file at the start of
    [getConfig], nothing writes to [process.env]: each helper leaves it as it
    found it, whether it answers or throws. *)
Theorem helpers_leave_process_env h cloudFoundryEnv prod api_url penv :
  snd (getPort cloudFoundryEnv penv) = penv /\
  snd (getElasticsearchUri cloudFoundryEnv penv) = penv /\
  snd (getAppFilesDirectories h penv) = penv /\
  snd (getSwaggerConf h prod api_url penv) = penv.
Proof.
  unfold getPort, getElasticsearchUri, getAppFilesDirectories, getSwaggerConf,
    readFileSync, process_env, throw.
  unfold mbind, mret, M_bind, M_ret.
  repeat split; try reflexivity.
  - destruct (isLocal cloudFoundryEnv); cbn [negb]; cbv beta iota zeta;
      [reflexivity|].
    destruct (getServiceCreds cloudFoundryEnv _); reflexivity.
  - destruct prod;
      match goal with
      | |- context [jsonfile_readFileSync h ?f] =>
          destruct (jsonfile_readFileSync h f)
      end; reflexivity.
Qed.
